(** * WorkshopInfrastructure: the CDK stack of the beam-on-kda workshop

    A shallow embedding of [cdk/lib/workshop-infrastructure.ts].  The
    constructor of the stack is a straight-line program that declares
    constructs in a scope, mutates some of them afterwards
    ([addIngressRule], [addToRolePolicy], [addSubscription], ...) and reads
    two files from disk.  It is embedded as a program in a small monad that
    threads the construct tree of the stack, reads from a file system and
    can raise. *)

From Stdlib Require Import String Ascii List ZArith Bool Lia.
Import ListNotations.
Local Open Scope string_scope.
Local Open Scope list_scope.

(** ** Tokens and strings carrying tokens *)

(** A construct is known inside its stack by the id it was declared with. *)
Definition LogicalId := string.

(** [cdk.Aws.PARTITION], [cdk.Aws.REGION], [cdk.Aws.ACCOUNT_ID]. *)
Inductive AwsPseudo := PARTITION | REGION | ACCOUNT_ID.

(** Values only known at deployment: an attribute of a declared construct
    ([bucket.bucketName], [topic.topicName], ...), its [ref], or a pseudo
    parameter. *)
Inductive Token :=
| Attr (owner : LogicalId) (attribute : string)
| Ref (owner : LogicalId)
| Aws (p : AwsPseudo).

Inductive Fragment :=
| Text (s : string)
| Tok (t : Token).

(** A template literal that interpolates tokens is a sequence of fragments. *)
Definition TokenString := list Fragment.

Definition lit (s : string) : TokenString := [Text s].
Definition tok (t : Token) : TokenString := [Tok t].

(** ** The construct library, one module per imported package *)

Module s3.
Inductive RemovalPolicy := DESTROY | RETAIN | SNAPSHOT.
Record Bucket := { versioned : bool; removalPolicy : RemovalPolicy }.
Definition bucketName (b : LogicalId) : TokenString := tok (Attr b "bucketName").
Definition bucketArn (b : LogicalId) : TokenString := tok (Attr b "bucketArn").
(** [bucket.arnForObjects(keyPattern)], the bucket ARN, a slash and the pattern *)
Definition arnForObjects (b : LogicalId) (keyPattern : string) : TokenString :=
  bucketArn b ++ lit ("/" ++ keyPattern)%string.
(** The actions [bucket.grantRead] grants. *)
Definition BUCKET_READ_ACTIONS : list string :=
  ["s3:GetObject*"; "s3:GetBucket*"; "s3:List*"].
End s3.

Module ec2.
Inductive SubnetType := ISOLATED | PRIVATE | PUBLIC.
Record SubnetConfiguration := { name : string; subnetType : SubnetType }.
Record Vpc := { subnetConfiguration : list SubnetConfiguration }.

Inductive Peer :=
| Ipv4 (cidr : string)
| SecurityGroupPeer (sg : LogicalId).
(** [ec2.Peer.anyIpv4()] *)
Definition anyIpv4 : Peer := Ipv4 "0.0.0.0/0".

Inductive Port :=
| tcp (port : Z)
| allTraffic.

Record IngressRule := { peer : Peer; connection : Port }.
Record SecurityGroup := { vpc : LogicalId; ingress : list IngressRule }.

Definition securityGroupName (sg : LogicalId) : TokenString :=
  tok (Attr sg "securityGroupName").
(** [vpc.publicSubnets[0].subnetId] *)
Definition publicSubnet0_subnetId (v : LogicalId) : TokenString :=
  tok (Attr v "publicSubnets[0].subnetId").
End ec2.

Module iam.
Record PolicyStatement :=
  { actions : list string; resources : list TokenString }.
Inductive Principal := ServicePrincipal (service : string).
Inductive ManagedPolicy := fromAwsManagedPolicyName (managedPolicyName : string).
Record Role :=
  { assumedBy : Principal;
    managedPolicies : list ManagedPolicy;
    policy : list PolicyStatement }.
Record CfnInstanceProfile := { roles : list TokenString }.
Definition roleName (r : LogicalId) : TokenString := tok (Attr r "roleName").
End iam.

Module lambda.
Inductive Runtime := NODEJS_12_X | PYTHON_3_7.
(** [Duration.seconds n], [Duration.minutes n] *)
Inductive Duration := seconds (n : Z) | minutes (n : Z).
Definition toSeconds (d : Duration) : Z :=
  match d with seconds n => n | minutes n => 60 * n end.
(** [lambda.Code.inline src] *)
Inductive Code := inline (source : string).
(** [lambda.Function]; the underscore keeps the name clear of the vernacular. *)
Record Function_ :=
  { runtime : Runtime;
    code : Code;
    timeout : Duration;
    handler : string;
    memorySize : option Z;
    environment : list (string * string);
    rolePolicy : list iam.PolicyStatement }.
Definition functionName (f : LogicalId) : TokenString := tok (Attr f "functionName").
(** A function declared without a [role] gets a service role of its own from
    the library: assumed by the lambda service, with the basic execution
    policy, and holding the statements given to [addToRolePolicy]. *)
Definition serviceRole (f : Function_) : iam.Role :=
  {| iam.assumedBy := iam.ServicePrincipal "lambda.amazonaws.com";
     iam.managedPolicies :=
       [iam.fromAwsManagedPolicyName "service-role/AWSLambdaBasicExecutionRole"];
     iam.policy := rolePolicy f |}.
(** The longest source [lambda.Code.inline] accepts, in characters. *)
Definition inlineLimit : nat := 4096.
End lambda.

Module sns.
(** [new subs.LambdaSubscription(fn)] *)
Inductive Subscription := LambdaSubscription (fn : LogicalId).
Record Topic := { subscriptions : list Subscription }.
Definition topicName (t : LogicalId) : TokenString := tok (Attr t "topicName").
End sns.

Module emr.
Record Application := { name : string }.
Record InstanceGroup :=
  { instanceCount : Z; instanceType : string; groupName : string }.
Record Instances :=
  { masterInstanceGroup : InstanceGroup;
    coreInstanceGroup : InstanceGroup;
    additionalMasterSecurityGroups : list TokenString;
    ec2SubnetId : TokenString }.
Record CfnCluster :=
  { clusterName : string;
    applications : list Application;
    instances : Instances;
    serviceRole : TokenString;
    releaseLabel : string;
    visibleToAllUsers : bool;
    jobFlowRole : TokenString }.
End emr.

(** Modelled from the spec: the construct [EmptyBucketOnDelete] of
    [./empty-bucket] is not part of the sources.  Section 4.2 of the
    specification gives its interface only: it consumes a bucket reference.
    It is kept as an opaque node that records what it was given. *)
Record EmptyBucketOnDeleteProps := { eb_bucket : LogicalId }.

(** Modelled from the spec: the construct [GithubBuildPipeline] of
    [./github-build-pipeline] is not part of the sources.  Section 4.2 gives
    its interface only: a source URL, a destination bucket and an extraction
    flag.  It is kept as an opaque node that records what it was given. *)
Record GithubBuildPipelineProps :=
  { url : string; gh_bucket : LogicalId; extract : bool }.

(** ** Ids and names of stacks *)

(** The construct library stores an id with every path separator replaced
    by two dashes. *)
Fixpoint sanitizeId (id : string) : string :=
  match id with
  | EmptyString => EmptyString
  | String c rest =>
      if Ascii.eqb c "/"
      then String "-" (String "-" (sanitizeId rest))
      else String c (sanitizeId rest)
  end.

Definition isLetter (c : ascii) : bool :=
  let n := nat_of_ascii c in
  (((65 <=? n) && (n <=? 90)) || ((97 <=? n) && (n <=? 122)))%nat.

Definition isDigit (c : ascii) : bool :=
  let n := nat_of_ascii c in ((48 <=? n) && (n <=? 57))%nat.

Fixpoint allNameChars (s : string) : bool :=
  match s with
  | EmptyString => true
  | String c rest => (isLetter c || isDigit c || Ascii.eqb c "-") && allNameChars rest
  end.

(** The names [cdk.Stack] accepts: a letter, then letters, digits and dashes. *)
Definition validStackName (name : string) : bool :=
  match name with
  | EmptyString => false
  | String c rest => isLetter c && allNameChars rest
  end.

(** [cdk.StackProps] belongs to the construct library.  The stack passes it
    on as it is; of its fields only [stackName] is modelled, the one the
    checks of [super] depend on. *)
Class StackPropsLike (T : Type) := { stackName : T -> option string }.

#[global] Instance unit_StackPropsLike : StackPropsLike unit :=
  {| stackName := fun _ => None |}.

Section Stack.

Context {StackProps : Type} `{!StackPropsLike StackProps}.

Record WorkshopInfrastructureProps :=
  { stackProps : StackProps;
    kinesisReplayVersion : string;
    beamApplicationVersion : string;
    beamApplicationJarFile : string;
    appName : string }.

(** Modelled from the spec: the construct [WindowsDevEnvironment] of
    [./windows-dev-environment] is not part of the sources.  Section 4.2
    gives its interface only: it consumes network, security group and bucket
    references plus the passed-through configuration, and receives
    references, so it does not change the constructs it is given.  It is
    kept as an opaque node that records what it was given. *)
Record WindowsDevEnvironmentProps :=
  { wde_props : WorkshopInfrastructureProps;   (* ...props *)
    wde_vpc : LogicalId;
    wde_sg : LogicalId;
    wde_bucket : LogicalId }.

Inductive Construct :=
| Bucket (b : s3.Bucket)
| EmptyBucketOnDelete (p : EmptyBucketOnDeleteProps)
| CfnOutput (value : TokenString)
| Vpc (v : ec2.Vpc)
| SecurityGroup (g : ec2.SecurityGroup)
| WindowsDevEnvironment (p : WindowsDevEnvironmentProps)
| GithubBuildPipeline (p : GithubBuildPipelineProps)
| Function_ (f : lambda.Function_)
| Topic (t : sns.Topic)
| Role (r : iam.Role)
| CfnInstanceProfile (p : iam.CfnInstanceProfile)
| CfnCluster (c : emr.CfnCluster).

(** The stack under construction, as its scope holds it: the id and props
    [super(scope, id, props)] kept, and the constructs declared so far, in
    declaration order. *)
Record Stack :=
  { stackId : string;
    props_ : StackProps;
    children : list (LogicalId * Construct) }.

(** ** The synthesis monad *)

(** [fs.readFileSync(path).toString()] either gives the text of the file or
    throws; [None] stands for every way the read can fail. *)
Definition FileSystem := string -> option string.

Inductive SynthError :=
| ReadFailed (path : string)          (* whatever [fs.readFileSync path] threw *)
| EmptyId                             (* a construct id must not be empty *)
| InvalidStackName (name : string)
| InlineCodeEmpty
| InlineCodeTooLarge (length : nat)
| DuplicateId (id : LogicalId)
| NotFound (id : LogicalId).

(** A step reads the file system and works on the stack held by the scope.
    It returns or throws; nothing in the constructor catches, and what was
    declared before a throw stays declared. *)
Definition M (A : Type) : Type :=
  FileSystem -> Stack -> (SynthError + A) * Stack.

Definition ret {A} (a : A) : M A := fun _ s => (inr a, s).

Definition bind {A B} (m : M A) (k : A -> M B) : M B :=
  fun fs s =>
    match m fs s with
    | (inl e, s') => (inl e, s')
    | (inr a, s') => k a fs s'
    end.

Definition throw {A} (e : SynthError) : M A := fun _ s => (inl e, s).

Declare Scope synth_scope.
Delimit Scope synth_scope with synth.
Notation "x <- c1 ;; c2" := (bind c1 (fun x => c2))
  (at level 61, c1 at next level, right associativity) : synth_scope.
Notation "c1 ;; c2" := (bind c1 (fun _ => c2))
  (at level 61, right associativity) : synth_scope.
Local Open Scope synth_scope.

(** [fs.readFileSync(path).toString()] *)
Definition readFileSync (path : string) : M string :=
  fun fs s =>
    match fs path with
    | Some contents => (inr contents, s)
    | None => (inl (ReadFailed path), s)
    end.

(** [lambda.Code.inline(source)] refuses an empty source and one longer
    than 4096 characters. *)
Definition inlineCode (source : string) : M lambda.Code :=
  fun _ s =>
    if Nat.eqb (String.length source) 0
    then (inl InlineCodeEmpty, s)
    else if Nat.ltb lambda.inlineLimit (String.length source)
         then (inl (InlineCodeTooLarge (String.length source)), s)
         else (inr (lambda.inline source), s).

Fixpoint lookup (id : LogicalId) (cs : list (LogicalId * Construct))
  : option Construct :=
  match cs with
  | [] => None
  | (i, c) :: rest => if String.eqb i id then Some c else lookup id rest
  end.

Definition set_children (s : Stack) (cs : list (LogicalId * Construct)) : Stack :=
  {| stackId := stackId s; props_ := props_ s; children := cs |}.

(** [new C(this, id, props)]: the construct is appended to the scope, which
    refuses an id it already holds; the handle returned is the id. *)
Definition declare (id : LogicalId) (c : Construct) : M LogicalId :=
  fun _ s =>
    match lookup id (children s) with
    | Some _ => (inl (DuplicateId id), s)
    | None => (inr id, set_children s (children s ++ [(id, c)]))
    end.

(** A method call that mutates the construct behind a handle.  [f] gives
    [None] when the handle is of another class. *)
Fixpoint update (id : LogicalId) (f : Construct -> option Construct)
  (cs : list (LogicalId * Construct)) : option (list (LogicalId * Construct)) :=
  match cs with
  | [] => None
  | (i, c) :: rest =>
      if String.eqb i id
      then match f c with
           | Some c' => Some ((i, c') :: rest)
           | None => None
           end
      else match update id f rest with
           | Some rest' => Some ((i, c) :: rest')
           | None => None
           end
  end.

Definition mutate (id : LogicalId) (f : Construct -> option Construct) : M unit :=
  fun _ s =>
    match update id f (children s) with
    | Some cs => (inr tt, set_children s cs)
    | None => (inl (NotFound id), s)
    end.

(** [sg.addIngressRule(peer, connection)] *)
Definition addIngressRule (sg : LogicalId) (p : ec2.Peer) (c : ec2.Port) : M unit :=
  mutate sg (fun x =>
    match x with
    | SecurityGroup g =>
        Some (SecurityGroup
                {| ec2.vpc := ec2.vpc g;
                   ec2.ingress :=
                     ec2.ingress g ++ [{| ec2.peer := p; ec2.connection := c |}] |})
    | _ => None
    end).

(** [fn.addToRolePolicy(statement)] *)
Definition addToRolePolicy (fn : LogicalId) (st : iam.PolicyStatement) : M unit :=
  mutate fn (fun x =>
    match x with
    | Function_ f =>
        Some (Function_
                {| lambda.runtime := lambda.runtime f;
                   lambda.code := lambda.code f;
                   lambda.timeout := lambda.timeout f;
                   lambda.handler := lambda.handler f;
                   lambda.memorySize := lambda.memorySize f;
                   lambda.environment := lambda.environment f;
                   lambda.rolePolicy := lambda.rolePolicy f ++ [st] |})
    | _ => None
    end).

(** [topic.addSubscription(subscription)] *)
Definition addSubscription (topic : LogicalId) (sub : sns.Subscription) : M unit :=
  mutate topic (fun x =>
    match x with
    | Topic t => Some (Topic {| sns.subscriptions := sns.subscriptions t ++ [sub] |})
    | _ => None
    end).

(** [role.addToPolicy(statement)] *)
Definition addToPolicy (role : LogicalId) (st : iam.PolicyStatement) : M unit :=
  mutate role (fun x =>
    match x with
    | Role r =>
        Some (Role
                {| iam.assumedBy := iam.assumedBy r;
                   iam.managedPolicies := iam.managedPolicies r;
                   iam.policy := iam.policy r ++ [st] |})
    | _ => None
    end).

(** [bucket.grantRead(identity)]: the read actions on the bucket and on its
    objects are added to the policy of the grantee, the policy of a role or
    that of the service role of a function. *)
Definition grantRead (bucket identity : LogicalId) : M unit :=
  let st :=
    {| iam.actions := s3.BUCKET_READ_ACTIONS;
       iam.resources := [s3.bucketArn bucket; s3.arnForObjects bucket "*"] |} in
  mutate identity (fun x =>
    match x with
    | Role r =>
        Some (Role
                {| iam.assumedBy := iam.assumedBy r;
                   iam.managedPolicies := iam.managedPolicies r;
                   iam.policy := iam.policy r ++ [st] |})
    | Function_ f =>
        Some (Function_
                {| lambda.runtime := lambda.runtime f;
                   lambda.code := lambda.code f;
                   lambda.timeout := lambda.timeout f;
                   lambda.handler := lambda.handler f;
                   lambda.memorySize := lambda.memorySize f;
                   lambda.environment := lambda.environment f;
                   lambda.rolePolicy := lambda.rolePolicy f ++ [st] |})
    | _ => None
    end).

(** ** The stack *)

Definition addTimestampLambdaPath : string := "lambda/add-approximate-arrival-time.js".
Definition stopApplicationLambdaPath : string := "lambda/stop-kda-app.py".

(** The body of [constructor(scope, id, props)] after [super(scope, id, props)],
    statement by statement.  [lambda.Code.inline] runs while the props of
    its function are put together, before the function is declared. *)
Definition WorkshopInfrastructure (props : WorkshopInfrastructureProps) : M unit :=
  bucket <- declare "Bucket"
    (Bucket {| s3.versioned := true; s3.removalPolicy := s3.DESTROY |}) ;;
  emptyBucket <- declare "EmptyBucket"
    (EmptyBucketOnDelete {| eb_bucket := bucket |}) ;;
  declare "S3Bucket" (CfnOutput (s3.bucketName bucket)) ;;
  declare "InputS3Pattern"
    (CfnOutput (lit "s3://" ++ s3.bucketName bucket
                ++ lit "/historic-trip-events/*/*/*/*/*")) ;;
  vpc <- declare "Vpc"
    (Vpc {| ec2.subnetConfiguration :=
              [{| ec2.name := "public"; ec2.subnetType := ec2.PUBLIC |}] |}) ;;
  sg <- declare "SecurityGroup"
    (SecurityGroup {| ec2.vpc := vpc; ec2.ingress := [] |}) ;;
  addIngressRule sg ec2.anyIpv4 (ec2.tcp 3389) ;;
  addIngressRule sg (ec2.SecurityGroupPeer sg) ec2.allTraffic ;;
  declare "WindowsDevEnvironment"
    (WindowsDevEnvironment
       {| wde_props := props; wde_vpc := vpc; wde_sg := sg; wde_bucket := bucket |}) ;;
  declare "BeamConsumerBuildPipeline"
    (GithubBuildPipeline
       {| url := ("https://github.com/aws-samples/amazon-kinesis-analytics-beam-taxi-consumer/archive/"
                  ++ beamApplicationVersion props ++ ".zip")%string;
          gh_bucket := bucket;
          extract := true |}) ;;
  declare "BeamConsumerJarPath"
    (CfnOutput (lit ("target/" ++ beamApplicationJarFile props)%string)) ;;
  addTimestamplambdaSource <- readFileSync addTimestampLambdaPath ;;
  enrichCode <- inlineCode addTimestamplambdaSource ;;
  enrichEvents <- declare "EnrichEventsLambda"
    (Function_
       {| lambda.runtime := lambda.NODEJS_12_X;
          lambda.code := enrichCode;
          lambda.timeout := lambda.seconds 60;
          lambda.handler := "index.handler";
          lambda.memorySize := None;
          lambda.environment := [];
          lambda.rolePolicy := [] |}) ;;
  declare "FirehoseTransformationLambda"
    (CfnOutput (lambda.functionName enrichEvents)) ;;
  stopApplicationlambdaSource <- readFileSync stopApplicationLambdaPath ;;
  terminateCode <- inlineCode stopApplicationlambdaSource ;;
  terminateAppLambda <- declare "TerminateAppLambda"
    (Function_
       {| lambda.runtime := lambda.PYTHON_3_7;
          lambda.code := terminateCode;
          lambda.timeout := lambda.minutes 15;
          lambda.handler := "index.empty_bucket";
          lambda.memorySize := Some 512%Z;
          lambda.environment := [("application_name", appName props)];
          lambda.rolePolicy := [] |}) ;;
  addToRolePolicy terminateAppLambda
    {| iam.actions := ["kinesisanalytics:StopApplication"];
       iam.resources :=
         [[Text "arn:"; Tok (Aws PARTITION); Text ":kinesisanalytics:";
           Tok (Aws REGION); Text ":"; Tok (Aws ACCOUNT_ID);
           Text (":application/" ++ appName props)%string]] |} ;;
  topic <- declare "ApplicationTerminatedTopic"
    (Topic {| sns.subscriptions := [] |}) ;;
  addSubscription topic (sns.LambdaSubscription terminateAppLambda) ;;
  declare "ApplicationTerminatedTopicName" (CfnOutput (sns.topicName topic)) ;;
  kdaRole <- declare "KdaRole"
    (Role {| iam.assumedBy := iam.ServicePrincipal "kinesisanalytics.amazonaws.com";
             iam.managedPolicies := [];
             iam.policy := [] |}) ;;
  addToPolicy kdaRole
    {| iam.actions :=
         ["logs:Describe*"; "logs:PutLogEvents"; "kinesis:List*";
          "kinesis:Describe*"; "kinesis:Get*"; "kinesis:SubscribeToShard"];
       iam.resources := [lit "*"] |} ;;
  grantRead bucket kdaRole ;;
  emrClusterRole <- declare "EmrClusterRole"
    (Role {| iam.assumedBy := iam.ServicePrincipal "elasticmapreduce.amazonaws.com";
             iam.managedPolicies :=
               [iam.fromAwsManagedPolicyName "service-role/AmazonElasticMapReduceRole"];
             iam.policy := [] |}) ;;
  emrInstanceRole <- declare "EmrInstanceRole"
    (Role {| iam.assumedBy := iam.ServicePrincipal "ec2.amazonaws.com";
             iam.managedPolicies :=
               [iam.fromAwsManagedPolicyName
                  "service-role/AmazonElasticMapReduceforEC2Role";
                iam.fromAwsManagedPolicyName "AmazonSSMManagedInstanceCore"];
             iam.policy := [] |}) ;;
  emrProfile <- declare "EmrInstanceProfile"
    (CfnInstanceProfile {| iam.roles := [iam.roleName emrInstanceRole] |}) ;;
  cluster <- declare "EmrCluster"
    (CfnCluster
       {| emr.clusterName := "beam-workshop";
          emr.applications :=
            [{| emr.name := "Hadoop" |}; {| emr.name := "Ganglia" |};
             {| emr.name := "Flink" |}; {| emr.name := "ZooKeeper" |}];
          emr.instances :=
            {| emr.masterInstanceGroup :=
                 {| emr.instanceCount := 1; emr.instanceType := "c5n.xlarge";
                    emr.groupName := "Master" |};
               emr.coreInstanceGroup :=
                 {| emr.instanceCount := 2; emr.instanceType := "r5.xlarge";
                    emr.groupName := "Core" |};
               emr.additionalMasterSecurityGroups := [ec2.securityGroupName sg];
               emr.ec2SubnetId := ec2.publicSubnet0_subnetId vpc |};
          emr.serviceRole := iam.roleName emrClusterRole;
          emr.releaseLabel := "emr-5.27.0";
          emr.visibleToAllUsers := true;
          emr.jobFlowRole := tok (Ref emrProfile) |}) ;;
  ret tt.

(** [super(scope, id, props)], for a stack declared in the app itself: the
    id must not be empty and is kept sanitized; the stack name, the
    [stackName] of the props or else the sanitized id, must be a valid one.
    The stack starts without constructs. *)
Definition super (id : string) (props : WorkshopInfrastructureProps)
  : SynthError + Stack :=
  if String.eqb id ""
  then inl EmptyId
  else
    let name :=
      match stackName (stackProps props) with
      | Some n => n
      | None => sanitizeId id
      end in
    if validStackName name
    then inr {| stackId := sanitizeId id; props_ := stackProps props; children := [] |}
    else inl (InvalidStackName name).

(** [new WorkshopInfrastructure(scope, id, props)]: the stack, or the
    exception that escaped the constructor. *)
Definition synth (fs : FileSystem) (id : string)
  (props : WorkshopInfrastructureProps) : SynthError + Stack :=
  match super id props with
  | inl e => inl e
  | inr s0 =>
      match WorkshopInfrastructure props fs s0 with
      | (inl e, _) => inl e
      | (inr _, s) => inr s
      end
  end.

(** What the scope holds of the stack once the constructor has returned or
    thrown: nothing when [super] threw, else all that was declared. *)
Definition registered (fs : FileSystem) (id : string)
  (props : WorkshopInfrastructureProps) : option Stack :=
  match super id props with
  | inl _ => None
  | inr s0 => Some (snd (WorkshopInfrastructure props fs s0))
  end.

End Stack.

Arguments readFileSync : simpl never.
Arguments inlineCode : simpl never.

Arguments WorkshopInfrastructureProps : clear implicits.
Arguments WindowsDevEnvironmentProps : clear implicits.
Arguments Construct : clear implicits.
Arguments Stack : clear implicits.
Arguments M : clear implicits.

(** ** Observing a synthesized stack *)

Section Observers.
Context {StackProps : Type} `{!StackPropsLike StackProps}.

(** The value of the stack output declared under [name]. *)
Definition output (name : LogicalId) (s : Stack StackProps) : option TokenString :=
  match lookup name (children s) with
  | Some (CfnOutput v) => Some v
  | _ => None
  end.

(** The ids under which the constructs were declared, in order. *)
Definition ids (s : Stack StackProps) : list LogicalId := map fst (children s).

(** How many declared constructs satisfy [p]. *)
Definition count (p : Construct StackProps -> bool) (s : Stack StackProps) : nat :=
  length (filter (fun ic => p (snd ic)) (children s)).

Definition isBucket (c : Construct StackProps) : bool :=
  match c with Bucket _ => true | _ => false end.
Definition isVpc (c : Construct StackProps) : bool :=
  match c with Vpc _ => true | _ => false end.
Definition isSecurityGroup (c : Construct StackProps) : bool :=
  match c with SecurityGroup _ => true | _ => false end.
Definition isFunction (c : Construct StackProps) : bool :=
  match c with Function_ _ => true | _ => false end.
Definition isTopic (c : Construct StackProps) : bool :=
  match c with Topic _ => true | _ => false end.
Definition isRole (c : Construct StackProps) : bool :=
  match c with Role _ => true | _ => false end.
Definition isCfnInstanceProfile (c : Construct StackProps) : bool :=
  match c with CfnInstanceProfile _ => true | _ => false end.
Definition isCfnCluster (c : Construct StackProps) : bool :=
  match c with CfnCluster _ => true | _ => false end.

Definition isCfnOutput (c : Construct StackProps) : bool :=
  match c with CfnOutput _ => true | _ => false end.

(** The IAM roles a construct brings into the stack, with their paths: a
    declared role is one, a function brings its service role. *)
Definition rolesOf (ic : LogicalId * Construct StackProps)
  : list (string * iam.Role) :=
  match snd ic with
  | Role r => [(fst ic, r)]
  | Function_ f => [((fst ic ++ "/ServiceRole")%string, lambda.serviceRole f)]
  | _ => []
  end.

(** All IAM roles of the stack, in declaration order. *)
Definition stackRoles (s : Stack StackProps) : list (string * iam.Role) :=
  flat_map rolesOf (children s).

(** The archive URL handed to the build pipeline. *)
Definition pipelineUrl (s : Stack StackProps) : option string :=
  match lookup "BeamConsumerBuildPipeline" (children s) with
  | Some (GithubBuildPipeline p) => Some (url p)
  | _ => None
  end.

(** The props with another [beamApplicationVersion], all else unchanged. *)
Definition withBeamApplicationVersion (v : string)
  (p : WorkshopInfrastructureProps StackProps) : WorkshopInfrastructureProps StackProps :=
  {| stackProps := stackProps p;
     kinesisReplayVersion := kinesisReplayVersion p;
     beamApplicationVersion := v;
     beamApplicationJarFile := beamApplicationJarFile p;
     appName := appName p |}.

End Observers.

(** ** Concrete inputs *)

Definition sampleProps : WorkshopInfrastructureProps unit :=
  {| stackProps := tt;
     kinesisReplayVersion := "release-0.1.0";
     beamApplicationVersion := "release-0.2.0";
     beamApplicationJarFile := "amazon-kinesis-analytics-beam-taxi-consumer-1.0-SNAPSHOT.jar";
     appName := "beam-workshop" |}.

(** A working directory that holds both lambda sources. *)
Definition sampleFiles : FileSystem :=
  fun path =>
    if String.eqb path addTimestampLambdaPath then Some "exports.handler = f;"
    else if String.eqb path stopApplicationLambdaPath then Some "def empty_bucket(e, c): pass"
    else None.

(** The same working directory with one more file in it. *)
Definition sampleFilesAndReadme : FileSystem :=
  fun path =>
    if String.eqb path "README.md" then Some "# workshop"
    else sampleFiles path.

(** A working directory from which the python source is missing. *)
Definition sampleFilesNoPython : FileSystem :=
  fun path =>
    if String.eqb path addTimestampLambdaPath then Some "exports.handler = f;"
    else None.

(** The empty stack, where a sample run would not give one. *)
Definition noStack : Stack unit :=
  {| stackId := ""; props_ := tt; children := [] |}.

Definition sampleStack : Stack unit :=
  Eval vm_compute in
    match synth sampleFiles "beam-workshop" sampleProps with
    | inr s => s
    | inl _ => noStack
    end.

(** What stays declared when the python source is missing. *)
Definition samplePartialStack : Stack unit :=
  Eval vm_compute in
    match registered sampleFilesNoPython "beam-workshop" sampleProps with
    | Some s => s
    | None => noStack
    end.

(** The props of [sampleProps] with a later application version. *)
Definition samplePropsBumped : WorkshopInfrastructureProps unit :=
  withBeamApplicationVersion "release-0.3.0" sampleProps.

Definition sampleStackBumped : Stack unit :=
  Eval vm_compute in
    match synth sampleFiles "beam-workshop" samplePropsBumped with
    | inr s => s
    | inl _ => noStack
    end.

(** Whether [needle] occurs somewhere in [hay]. *)
Fixpoint contains (needle hay : string) : bool :=
  String.prefix needle hay
  || match hay with
     | EmptyString => false
     | String _ rest => contains needle rest
     end.

(** * Properties *)

Section Properties.
Context {StackProps : Type} `{!StackPropsLike StackProps}.
Implicit Types (fs : FileSystem) (id : string)
  (props : WorkshopInfrastructureProps StackProps) (s : Stack StackProps).

(** ** Strings *)

Lemma append_length (a b : string) :
  String.length (a ++ b)%string = String.length a + String.length b.
Proof. induction a as [|c a IH]; cbn; [reflexivity | now rewrite IH]. Qed.

Lemma append_cancel_r (x a b : string) : (a ++ x = b ++ x)%string -> a = b.
Proof.
  revert b. induction a as [|c a IH]; intros [|d b] H; cbn in H.
  - reflexivity.
  - apply (f_equal String.length) in H. cbn in H. rewrite append_length in H. lia.
  - apply (f_equal String.length) in H. cbn in H. rewrite append_length in H. lia.
  - injection H as -> H. f_equal. now apply IH.
Qed.

(** ** Declarations and mutations *)

Lemma lookup_None_notin (i : LogicalId) (cs : list (LogicalId * Construct StackProps)) :
  lookup i cs = None -> ~ In i (map fst cs).
Proof.
  induction cs as [|[j c] cs IH]; cbn; [tauto|].
  destruct (String.eqb j i) eqn:E; [discriminate|].
  intros H [Hj|Hin]; [|now apply IH].
  subst j. now rewrite String.eqb_refl in E.
Qed.

(** A declaration returns its id as handle, appends it to the scope, and
    only goes through for an id the scope does not hold yet. *)
Lemma declare_ids (i : LogicalId) (c : Construct StackProps) fs s h s' :
  declare i c fs s = (inr h, s') ->
  h = i /\ ids s' = ids s ++ [i] /\ ~ In i (ids s).
Proof.
  unfold declare. destruct (lookup i (children s)) eqn:E; [discriminate|].
  intros H. injection H as <- <-. unfold ids. cbn. rewrite map_app.
  repeat split. now apply lookup_None_notin.
Qed.

Lemma update_ids (i : LogicalId) f (cs cs' : list (LogicalId * Construct StackProps)) :
  update i f cs = Some cs' -> map fst cs' = map fst cs.
Proof.
  revert cs'. induction cs as [|[j c] cs IH]; cbn; intros cs' H; [discriminate|].
  destruct (String.eqb j i).
  - destruct (f c); [|discriminate]. now injection H as <-.
  - destruct (update i f cs) as [rest|]; [|discriminate].
    injection H as <-. cbn. f_equal. now apply IH.
Qed.

(** A method call on a handle declares nothing and removes nothing. *)
Lemma mutate_ids (i : LogicalId) f fs s u s' :
  mutate i f fs s = (inr u, s') -> ids s' = ids s.
Proof.
  unfold mutate. destruct (update i f (children s)) as [cs|] eqn:E; [|discriminate].
  intros H. injection H as _ <-. unfold ids. cbn. now apply update_ids in E.
Qed.

(** ** Running the constructor *)

(** [super] throws on the id or on the stack name, or gives an empty stack. *)
Lemma super_inr id props s0 :
  super id props = inr s0 ->
  s0 = {| stackId := sanitizeId id; props_ := stackProps props; children := [] |}.
Proof.
  unfold super. destruct (String.eqb id ""); [discriminate|].
  destruct (validStackName _); [|discriminate].
  intros H. now injection H as <-.
Qed.

Lemma super_inl id props e :
  super id props = inl e -> e = EmptyId \/ exists name, e = InvalidStackName name.
Proof.
  unfold super. destruct (String.eqb id ""); [intros H; injection H as <-; auto|].
  destruct (validStackName _); [discriminate|].
  intros H. injection H as <-. eauto.
Qed.

Lemma bind_readFileSync {A} (path : string) (k : string -> M StackProps A) fs s :
  bind (readFileSync path) k fs s =
  match fs path with
  | Some contents => k contents fs s
  | None => (inl (ReadFailed path), s)
  end.
Proof. unfold bind, readFileSync. now destruct (fs path). Qed.

Lemma bind_inlineCode {A} (source : string) (k : lambda.Code -> M StackProps A) fs s :
  bind (inlineCode source) k fs s =
  if Nat.eqb (String.length source) 0
  then (inl InlineCodeEmpty, s)
  else if Nat.ltb lambda.inlineLimit (String.length source)
       then (inl (InlineCodeTooLarge (String.length source)), s)
       else k (lambda.inline source) fs s.
Proof.
  unfold bind, inlineCode.
  destruct (Nat.eqb _ 0); [reflexivity|].
  now destruct (Nat.ltb _ _).
Qed.

(** A read in [H] becomes a case split on the file. *)
Ltac read_file H :=
  rewrite bind_readFileSync in H;
  match type of H with
  | context [match ?fs ?path with _ => _ end] =>
      let src := fresh "src" in
      let E := fresh "E" in
      destruct (fs path) as [src|] eqn:E
  end.

(** [lambda.Code.inline] in [H] becomes a case split on its two checks. *)
Ltac inline_check H :=
  rewrite bind_inlineCode in H;
  match type of H with
  | context [if Nat.eqb ?n 0 then _ else _] =>
      let Hlen := fresh "Hlen" in
      destruct (Nat.eqb n 0) eqn:Hlen;
      [ | let Hlim := fresh "Hlim" in
          destruct (Nat.ltb lambda.inlineLimit n) eqn:Hlim ]
  end.

(** The same case split in the goal. *)
Ltac checks :=
  match goal with
  | |- context [if Nat.eqb ?n 0 then _ else _] =>
      destruct (Nat.eqb n 0);
      [ | destruct (Nat.ltb lambda.inlineLimit n) ]; cbn
  end.

(** Runs the body of the constructor in [H : r = WorkshopInfrastructure _ _ _]
    from an explicit stack: declarations and method calls compute, reads and
    checks are case splits.  The goals come in the order: javascript source
    empty, too large; python source empty, too large; all well; python
    source unreadable; javascript source unreadable. *)
Ltac run_body H :=
  unfold WorkshopInfrastructure in H; cbn in H;
  read_file H; cbn in H;
  [ inline_check H; cbn in H;
    [ | | read_file H; cbn in H; [ inline_check H; cbn in H | ] ]
  | ].

(** Runs the constructor in [H : synth fs id props = _] and in what the
    goal says of [registered fs id props]. *)
Ltac run_synth H :=
  unfold synth in *; try unfold registered in *;
  match type of H with
  | context [super ?i ?p] =>
      let e := fresh "e" in
      let s0 := fresh "s0" in
      let Hs := fresh "Hsuper" in
      destruct (super i p) as [e|s0] eqn:Hs;
      [ | apply super_inr in Hs; subst s0;
          match type of H with
          | context [WorkshopInfrastructure ?q ?fs ?s1] =>
              let r := fresh "r" in
              let Hr := fresh "Hr" in
              remember (WorkshopInfrastructure q fs s1) as r eqn:Hr in *;
              run_body Hr; subst r; cbn in H
          end ]
  end.

(** The same for [H : synth fs id props = inr s]: only the run in which
    nothing throws is left. *)
Ltac run_ok H := run_synth H; try discriminate H.

(** Splits [H : In x l] over an explicit list [l]. *)
Ltac in_cases H :=
  cbn in H;
  repeat (destruct H as [H|H]; [try discriminate H|]);
  try contradiction.

(** A synthesized stack has read both lambda sources. *)
Lemma synth_reads fs id props s :
  synth fs id props = inr s ->
  exists a b,
    fs addTimestampLambdaPath = Some a /\ fs stopApplicationLambdaPath = Some b.
Proof.
  intros H. run_ok H. eauto.
Qed.

(** No id is declared twice, and the declaration order is that of the source. *)
Lemma synth_ids fs id props s :
  synth fs id props = inr s ->
  ids s =
    ["Bucket"; "EmptyBucket"; "S3Bucket"; "InputS3Pattern"; "Vpc";
     "SecurityGroup"; "WindowsDevEnvironment"; "BeamConsumerBuildPipeline";
     "BeamConsumerJarPath"; "EnrichEventsLambda"; "FirehoseTransformationLambda";
     "TerminateAppLambda"; "ApplicationTerminatedTopic";
     "ApplicationTerminatedTopicName"; "KdaRole"; "EmrClusterRole";
     "EmrInstanceRole"; "EmrInstanceProfile"; "EmrCluster"].
Proof.
  intros H. run_ok H.
  injection H as <-. reflexivity.
Qed.

Lemma synth_NoDup fs id props s :
  synth fs id props = inr s -> NoDup (ids s).
Proof.
  intros H. rewrite (synth_ids _ _ _ _ H).
  repeat (constructor; [cbn; intuition discriminate|]). constructor.
Qed.

(** ** The storage bucket and its outputs *)

(** C7: the storage bucket is declared with versioning enabled and with the
    destructive removal policy, whatever the configuration, the stack id and
    the files read; it is the only bucket of the stack. *)
Theorem bucket_versioned_destroy fs id props s :
  synth fs id props = inr s ->
  lookup "Bucket" (children s)
    = Some (Bucket {| s3.versioned := true; s3.removalPolicy := s3.DESTROY |})
  /\ forall i b, In (i, Bucket b) (children s) ->
       i = "Bucket" /\ s3.versioned b = true /\ s3.removalPolicy b = s3.DESTROY.
Proof.
  intros H. run_ok H.
  injection H as <-. split; [reflexivity|].
  intros i b Hin. in_cases Hin.
  injection Hin as <- <-. now repeat split.
Qed.

(** C5: the output InputS3Pattern is the text s3:// followed by the name of
    the bucket declared in the same synthesis, followed by the text
    /historic-trip-events/ and five starred path levels. *)
Theorem input_s3_pattern fs id props s :
  synth fs id props = inr s ->
  exists bucket b,
    lookup bucket (children s) = Some (Bucket b)
    /\ (forall i b', In (i, Bucket b') (children s) -> i = bucket)
    /\ output "InputS3Pattern" s
       = Some (lit "s3://" ++ s3.bucketName bucket
               ++ lit "/historic-trip-events/*/*/*/*/*").
Proof.
  intros H. run_ok H.
  injection H as <-. exists "Bucket". eexists.
  split; [reflexivity|]. split; [|reflexivity].
  intros i b' Hin. in_cases Hin. now injection Hin as <- _.
Qed.

(** ** The security group *)

(** C2: the security group of the stack has exactly two ingress rules, TCP
    port 3389 from 0.0.0.0/0 and all traffic from the security group itself,
    and the stack declares no other security group. *)
Theorem security_group_ingress fs id props s :
  synth fs id props = inr s ->
  exists sg g,
    lookup sg (children s) = Some (SecurityGroup g)
    /\ (forall i g', In (i, SecurityGroup g') (children s) -> i = sg /\ g' = g)
    /\ ec2.ingress g =
         [ {| ec2.peer := ec2.Ipv4 "0.0.0.0/0"; ec2.connection := ec2.tcp 3389 |};
           {| ec2.peer := ec2.SecurityGroupPeer sg;
              ec2.connection := ec2.allTraffic |} ].
Proof.
  intros H. run_ok H.
  injection H as <-. exists "SecurityGroup". eexists.
  split; [reflexivity|]. split; [|reflexivity].
  intros i g' Hin. in_cases Hin. now injection Hin as <- <-.
Qed.

(** ** The two functions and the topic *)

(** C10: the termination function has runtime PYTHON_3_7, 512 MB of memory
    and the handler index.empty_bucket; the enrichment function has runtime
    NODEJS_12_X and the handler index.handler; none of these depends on the
    configuration. *)
Theorem function_settings fs id props s :
  synth fs id props = inr s ->
  exists terminate enrich,
    lookup "TerminateAppLambda" (children s) = Some (Function_ terminate)
    /\ lookup "EnrichEventsLambda" (children s) = Some (Function_ enrich)
    /\ lambda.runtime terminate = lambda.PYTHON_3_7
    /\ lambda.memorySize terminate = Some 512%Z
    /\ lambda.handler terminate = "index.empty_bucket"
    /\ lambda.runtime enrich = lambda.NODEJS_12_X
    /\ lambda.handler enrich = "index.handler".
Proof.
  intros H. run_ok H.
  injection H as <-. do 2 eexists.
  split; [reflexivity|]. split; [reflexivity|].
  cbn. now repeat split.
Qed.

(** C3: the role policy of the termination function holds exactly one
    statement; its only action is kinesisanalytics:StopApplication and its
    only resource is the ARN of the kinesisanalytics application named by
    the appName of the configuration. *)
Theorem terminate_policy_statement fs id props s :
  synth fs id props = inr s ->
  exists terminate,
    lookup "TerminateAppLambda" (children s) = Some (Function_ terminate)
    /\ lambda.rolePolicy terminate =
         [ {| iam.actions := ["kinesisanalytics:StopApplication"];
              iam.resources :=
                [ [Text "arn:"; Tok (Aws PARTITION); Text ":kinesisanalytics:";
                   Tok (Aws REGION); Text ":"; Tok (Aws ACCOUNT_ID);
                   Text (":application/" ++ appName props)%string] ] |} ].
Proof.
  intros H. run_ok H.
  injection H as <-. eexists. split; reflexivity.
Qed.

(** C8: the notification topic has exactly one subscription, the lambda
    subscription of the termination function, and the stack declares no
    other topic. *)
Theorem topic_single_subscriber fs id props s :
  synth fs id props = inr s ->
  exists topic terminate,
    lookup "TerminateAppLambda" (children s) = Some (Function_ terminate)
    /\ lookup topic (children s)
       = Some (Topic {| sns.subscriptions :=
                          [sns.LambdaSubscription "TerminateAppLambda"] |})
    /\ forall i t, In (i, Topic t) (children s) ->
         i = topic
         /\ sns.subscriptions t = [sns.LambdaSubscription "TerminateAppLambda"].
Proof.
  intros H. run_ok H.
  injection H as <-. exists "ApplicationTerminatedTopic". eexists.
  split; [reflexivity|]. split; [reflexivity|].
  intros i t Hin. in_cases Hin. now injection Hin as <- <-.
Qed.

(** ** The shape of the whole stack *)

(** C4, as amended: a synthesized stack declares exactly one bucket, one VPC,
    one security group, two functions, one topic, one instance profile and
    one cluster.  It declares three IAM roles, and with the service role
    that each of the two functions brings it holds five IAM roles. *)
Theorem synthesized_resource_counts fs id props s :
  synth fs id props = inr s ->
  count isBucket s = 1
  /\ count isVpc s = 1
  /\ count isSecurityGroup s = 1
  /\ count isFunction s = 2
  /\ count isTopic s = 1
  /\ count isRole s = 3
  /\ map fst (stackRoles s)
     = ["EnrichEventsLambda/ServiceRole"; "TerminateAppLambda/ServiceRole";
        "KdaRole"; "EmrClusterRole"; "EmrInstanceRole"]
  /\ length (stackRoles s) = 5
  /\ count isCfnInstanceProfile s = 1
  /\ lookup "EmrInstanceProfile" (children s)
     = Some (CfnInstanceProfile {| iam.roles := [iam.roleName "EmrInstanceRole"] |})
  /\ count isCfnCluster s = 1.
Proof.
  intros H. run_ok H.
  injection H as <-. cbn.
  repeat split; reflexivity.
Qed.

(** C6: with the same stack id and configuration, two runs of the
    constructor give the same result as soon as the two lambda sources have
    the same contents in both; nothing else of the file system matters. *)
Theorem synth_deterministic fs fs' id props :
  fs addTimestampLambdaPath = fs' addTimestampLambdaPath ->
  fs stopApplicationLambdaPath = fs' stopApplicationLambdaPath ->
  synth fs id props = synth fs' id props.
Proof.
  intros E1 E2. unfold synth.
  destruct (super id props) as [e|s0] eqn:Hsuper; [reflexivity|].
  apply super_inr in Hsuper. subst s0.
  unfold WorkshopInfrastructure. cbn.
  rewrite !bind_readFileSync, <- E1.
  destruct (fs addTimestampLambdaPath); cbn; [|reflexivity].
  rewrite !bind_inlineCode. checks; [reflexivity|reflexivity|].
  rewrite !bind_readFileSync, <- E2.
  destruct (fs stopApplicationLambdaPath); cbn; [|reflexivity].
  rewrite !bind_inlineCode. checks; reflexivity.
Qed.

(** C9, as amended: when one of the two lambda sources cannot be read the
    constructor throws and returns no stack.  The failure is not undone:
    when the exception is that of a read, the file read is one of the two
    and is unreadable, and the scope keeps the stack with the constructs
    declared before that read, nine before the javascript source and eleven
    before the python source. *)
Theorem missing_source_throws_without_rollback fs id props :
  fs addTimestampLambdaPath = None \/ fs stopApplicationLambdaPath = None ->
  (forall s, synth fs id props <> inr s)
  /\ forall path,
       synth fs id props = inl (ReadFailed path) ->
       fs path = None
       /\ ((path = addTimestampLambdaPath
            /\ option_map ids (registered fs id props)
               = Some ["Bucket"; "EmptyBucket"; "S3Bucket"; "InputS3Pattern"; "Vpc";
                       "SecurityGroup"; "WindowsDevEnvironment";
                       "BeamConsumerBuildPipeline"; "BeamConsumerJarPath"])
           \/ (path = stopApplicationLambdaPath
               /\ option_map ids (registered fs id props)
                  = Some ["Bucket"; "EmptyBucket"; "S3Bucket"; "InputS3Pattern"; "Vpc";
                          "SecurityGroup"; "WindowsDevEnvironment";
                          "BeamConsumerBuildPipeline"; "BeamConsumerJarPath";
                          "EnrichEventsLambda"; "FirehoseTransformationLambda"])).
Proof.
  intros Hmiss. split.
  - intros s H. run_ok H. destruct Hmiss; congruence.
  - clear Hmiss. intros path H. run_synth H; try discriminate H.
    + apply super_inl in Hsuper as [->|[name ->]]; discriminate H.
    + injection H as <-. split; [assumption|]. right. split; reflexivity.
    + injection H as <-. split; [assumption|]. left. split; reflexivity.
Qed.

(** ** The application version *)

(** C1, as amended: the beamApplicationVersion is substituted into the
    archive URL of the build pipeline only.  The output BeamConsumerJarPath
    is target/ followed by beamApplicationJarFile and stays the same when
    only the version changes, while the archive URL changes with it. *)
Theorem version_only_in_archive_url fs id props (v : string) s s' :
  synth fs id props = inr s ->
  synth fs id (withBeamApplicationVersion v props) = inr s' ->
  pipelineUrl s' =
    Some ("https://github.com/aws-samples/amazon-kinesis-analytics-beam-taxi-consumer/archive/"
          ++ v ++ ".zip")%string
  /\ output "BeamConsumerJarPath" s'
     = Some (lit ("target/" ++ beamApplicationJarFile props)%string)
  /\ output "BeamConsumerJarPath" s' = output "BeamConsumerJarPath" s
  /\ (v <> beamApplicationVersion props -> pipelineUrl s' <> pipelineUrl s).
Proof.
  intros H H'. run_ok H.
  run_ok H'.
  injection H as <-. injection H' as <-.
  repeat split.
  intros Hv Hurl. apply Hv.
  unfold pipelineUrl in Hurl. cbn [lookup children String.eqb Ascii.eqb Bool.eqb url] in Hurl.
  injection Hurl as Hurl.
  now apply append_cancel_r in Hurl.
Qed.

(** * Further properties of the constructor *)

(** ** Reading the lambda sources *)

(** X1: a synthesized stack embeds the two files verbatim: the inline code
    of the enrichment function is the contents read from the javascript
    path, that of the termination function the contents read from the
    python path. *)
Theorem lambda_sources_embedded fs id props s :
  synth fs id props = inr s ->
  exists a b enrich terminate,
    fs addTimestampLambdaPath = Some a
    /\ fs stopApplicationLambdaPath = Some b
    /\ lookup "EnrichEventsLambda" (children s) = Some (Function_ enrich)
    /\ lookup "TerminateAppLambda" (children s) = Some (Function_ terminate)
    /\ lambda.code enrich = lambda.inline a
    /\ lambda.code terminate = lambda.inline b.
Proof.
  intros H. run_ok H.
  injection H as <-. exists src, src0. do 2 eexists.
  repeat split; reflexivity.
Qed.

(** X2: the constructor yields a stack exactly when both lambda sources can
    be read: no declaration meets an id already taken and no method call
    meets a missing handle. *)
(** ** Settings of the functions *)

(** X4: the termination function gets the application name in its only
    environment variable, application_name, and 15 minutes, 900 seconds, to
    run; the enrichment function gets 60 seconds, no environment, no memory
    size and no policy statement. *)
Theorem function_environment_and_timeouts fs id props s :
  synth fs id props = inr s ->
  exists terminate enrich,
    lookup "TerminateAppLambda" (children s) = Some (Function_ terminate)
    /\ lookup "EnrichEventsLambda" (children s) = Some (Function_ enrich)
    /\ lambda.environment terminate = [("application_name", appName props)]
    /\ lambda.toSeconds (lambda.timeout terminate) = 900%Z
    /\ lambda.toSeconds (lambda.timeout enrich) = 60%Z
    /\ lambda.environment enrich = []
    /\ lambda.memorySize enrich = None
    /\ lambda.rolePolicy enrich = [].
Proof.
  intros H. run_ok H.
  injection H as <-. do 2 eexists.
  split; [reflexivity|]. split; [reflexivity|].
  cbn. now repeat split.
Qed.

(** ** Outputs *)

(** X5: the stack declares five outputs and no other: S3Bucket is the name
    of the bucket, FirehoseTransformationLambda the name of the enrichment
    function, ApplicationTerminatedTopicName the name of the topic, beside
    InputS3Pattern and BeamConsumerJarPath. *)
Theorem stack_outputs fs id props s :
  synth fs id props = inr s ->
  count isCfnOutput s = 5
  /\ (forall i v, In (i, CfnOutput v) (children s) ->
        In i ["S3Bucket"; "InputS3Pattern"; "BeamConsumerJarPath";
              "FirehoseTransformationLambda"; "ApplicationTerminatedTopicName"])
  /\ (exists bucket b enrich f topic t,
        lookup bucket (children s) = Some (Bucket b)
        /\ lookup enrich (children s) = Some (Function_ f)
        /\ lambda.handler f = "index.handler"
        /\ lookup topic (children s) = Some (Topic t)
        /\ output "S3Bucket" s = Some (s3.bucketName bucket)
        /\ output "FirehoseTransformationLambda" s = Some (lambda.functionName enrich)
        /\ output "ApplicationTerminatedTopicName" s = Some (sns.topicName topic)).
Proof.
  intros H. run_ok H.
  injection H as <-. split; [reflexivity|]. split.
  - intros i v Hin. in_cases Hin; injection Hin as <- _; cbn; auto 6.
  - exists "Bucket". eexists. exists "EnrichEventsLambda". eexists.
    exists "ApplicationTerminatedTopic". eexists.
    repeat split; reflexivity.
Qed.

(** ** Roles and policies *)

(** X6: the stack holds five IAM roles: the service roles of the two
    functions, assumed by the lambda service, and the declared roles
    KdaRole, EmrClusterRole and EmrInstanceRole, each assumed by a service
    of its own.  The policy of KdaRole holds two statements, the six read
    actions on logs and kinesis for every resource and, from the read grant,
    the read actions of the bucket on the bucket and on its objects; the
    service role of the termination function holds one, that of the
    enrichment function none, and the two EMR roles carry AWS managed
    policies only. *)
Theorem roles_and_policies fs id props s :
  synth fs id props = inr s ->
  map (fun ir => (fst ir, iam.assumedBy (snd ir), length (iam.policy (snd ir))))
      (stackRoles s)
  = [ ("EnrichEventsLambda/ServiceRole", iam.ServicePrincipal "lambda.amazonaws.com", 0);
      ("TerminateAppLambda/ServiceRole", iam.ServicePrincipal "lambda.amazonaws.com", 1);
      ("KdaRole", iam.ServicePrincipal "kinesisanalytics.amazonaws.com", 2);
      ("EmrClusterRole", iam.ServicePrincipal "elasticmapreduce.amazonaws.com", 0);
      ("EmrInstanceRole", iam.ServicePrincipal "ec2.amazonaws.com", 0) ]
  /\ (exists bucket b,
        lookup bucket (children s) = Some (Bucket b)
        /\ lookup "KdaRole" (children s)
           = Some (Role
                     {| iam.assumedBy :=
                          iam.ServicePrincipal "kinesisanalytics.amazonaws.com";
                        iam.managedPolicies := [];
                        iam.policy :=
                          [ {| iam.actions :=
                                 ["logs:Describe*"; "logs:PutLogEvents";
                                  "kinesis:List*"; "kinesis:Describe*";
                                  "kinesis:Get*"; "kinesis:SubscribeToShard"];
                               iam.resources := [lit "*"] |};
                            {| iam.actions :=
                                 ["s3:GetObject*"; "s3:GetBucket*"; "s3:List*"];
                               iam.resources :=
                                 [s3.bucketArn bucket;
                                  s3.bucketArn bucket ++ lit "/*"] |} ] |}))
  /\ lookup "EmrClusterRole" (children s)
     = Some (Role
               {| iam.assumedBy := iam.ServicePrincipal "elasticmapreduce.amazonaws.com";
                  iam.managedPolicies :=
                    [iam.fromAwsManagedPolicyName
                       "service-role/AmazonElasticMapReduceRole"];
                  iam.policy := [] |})
  /\ lookup "EmrInstanceRole" (children s)
     = Some (Role
               {| iam.assumedBy := iam.ServicePrincipal "ec2.amazonaws.com";
                  iam.managedPolicies :=
                    [iam.fromAwsManagedPolicyName
                       "service-role/AmazonElasticMapReduceforEC2Role";
                     iam.fromAwsManagedPolicyName "AmazonSSMManagedInstanceCore"];
                  iam.policy := [] |}).
Proof.
  intros H. run_ok H.
  injection H as <-. split; [reflexivity|]. split.
  - exists "Bucket". eexists. split; reflexivity.
  - split; reflexivity.
Qed.

(** ** The cluster *)

(** X7: the cluster is wired to constructs of the same stack: its service
    role is the role assumed by elasticmapreduce, its job flow role the
    instance profile of the role assumed by ec2, its additional master
    security group the security group of the stack, and its subnet the
    first public subnet of the VPC that security group lives in, a VPC
    configured with one group of public subnets.  It runs release emr-5.27.0
    with one c5n.xlarge master and two r5.xlarge core instances. *)
Theorem cluster_wiring fs id props s :
  synth fs id props = inr s ->
  exists c service r profile instanceRole r' sg g vpc,
    lookup "EmrCluster" (children s) = Some (CfnCluster c)
    /\ emr.serviceRole c = iam.roleName service
    /\ lookup service (children s) = Some (Role r)
    /\ iam.assumedBy r = iam.ServicePrincipal "elasticmapreduce.amazonaws.com"
    /\ emr.jobFlowRole c = tok (Ref profile)
    /\ lookup profile (children s)
       = Some (CfnInstanceProfile {| iam.roles := [iam.roleName instanceRole] |})
    /\ lookup instanceRole (children s) = Some (Role r')
    /\ iam.assumedBy r' = iam.ServicePrincipal "ec2.amazonaws.com"
    /\ emr.additionalMasterSecurityGroups (emr.instances c)
       = [ec2.securityGroupName sg]
    /\ lookup sg (children s) = Some (SecurityGroup g)
    /\ ec2.vpc g = vpc
    /\ emr.ec2SubnetId (emr.instances c) = ec2.publicSubnet0_subnetId vpc
    /\ lookup vpc (children s)
       = Some (Vpc {| ec2.subnetConfiguration :=
                        [ {| ec2.name := "public"; ec2.subnetType := ec2.PUBLIC |} ] |})
    /\ emr.masterInstanceGroup (emr.instances c)
       = {| emr.instanceCount := 1; emr.instanceType := "c5n.xlarge";
            emr.groupName := "Master" |}
    /\ emr.coreInstanceGroup (emr.instances c)
       = {| emr.instanceCount := 2; emr.instanceType := "r5.xlarge";
            emr.groupName := "Core" |}
    /\ emr.releaseLabel c = "emr-5.27.0"
    /\ map emr.name (emr.applications c) = ["Hadoop"; "Ganglia"; "Flink"; "ZooKeeper"].
Proof.
  intros H. run_ok H.
  injection H as <-.
  eexists. exists "EmrClusterRole". eexists. exists "EmrInstanceProfile".
  exists "EmrInstanceRole". eexists. exists "SecurityGroup". eexists.
  exists "Vpc".
  repeat split; reflexivity.
Qed.

(** ** The helper constructs *)

(** X8: the stack hands its own constructs to the helpers: the development
    environment receives the props unchanged together with the VPC, the
    security group and the bucket of the stack; the bucket emptier and the
    build pipeline receive that same bucket, the pipeline with extraction
    switched on. *)
Theorem helper_wiring fs id props s :
  synth fs id props = inr s ->
  exists bucket b sg g vpc v purl,
    lookup bucket (children s) = Some (Bucket b)
    /\ lookup sg (children s) = Some (SecurityGroup g)
    /\ lookup vpc (children s) = Some (Vpc v)
    /\ ec2.vpc g = vpc
    /\ lookup "WindowsDevEnvironment" (children s)
       = Some (WindowsDevEnvironment
                 {| wde_props := props; wde_vpc := vpc; wde_sg := sg;
                    wde_bucket := bucket |})
    /\ lookup "EmptyBucket" (children s)
       = Some (EmptyBucketOnDelete {| eb_bucket := bucket |})
    /\ lookup "BeamConsumerBuildPipeline" (children s)
       = Some (GithubBuildPipeline
                 {| url := purl; gh_bucket := bucket; extract := true |}).
Proof.
  intros H. run_ok H.
  injection H as <-.
  exists "Bucket". eexists. exists "SecurityGroup". eexists.
  exists "Vpc". do 2 eexists.
  repeat split; reflexivity.
Qed.

End Properties.

(** * The properties on a concrete stack *)

Lemma bucket_versioned_destroy_witness :
  synth sampleFiles "beam-workshop" sampleProps = inr sampleStack
  /\ (lookup "Bucket" (children sampleStack)
        = Some (Bucket {| s3.versioned := true; s3.removalPolicy := s3.DESTROY |})
      /\ forall i b, In (i, Bucket b) (children sampleStack) ->
           i = "Bucket" /\ s3.versioned b = true /\ s3.removalPolicy b = s3.DESTROY).
Proof.
  split; [reflexivity|].
  apply (bucket_versioned_destroy sampleFiles "beam-workshop" sampleProps sampleStack).
  reflexivity.
Defined.

Lemma input_s3_pattern_witness :
  synth sampleFiles "beam-workshop" sampleProps = inr sampleStack
  /\ exists bucket b,
       lookup bucket (children sampleStack) = Some (Bucket b)
       /\ (forall i b', In (i, Bucket b') (children sampleStack) -> i = bucket)
       /\ output "InputS3Pattern" sampleStack
          = Some (lit "s3://" ++ s3.bucketName bucket
                  ++ lit "/historic-trip-events/*/*/*/*/*").
Proof.
  split; [reflexivity|].
  apply (input_s3_pattern sampleFiles "beam-workshop" sampleProps sampleStack).
  reflexivity.
Defined.

Lemma security_group_ingress_witness :
  synth sampleFiles "beam-workshop" sampleProps = inr sampleStack
  /\ exists sg g,
       lookup sg (children sampleStack) = Some (SecurityGroup g)
       /\ (forall i g', In (i, SecurityGroup g') (children sampleStack) ->
             i = sg /\ g' = g)
       /\ ec2.ingress g =
            [ {| ec2.peer := ec2.Ipv4 "0.0.0.0/0"; ec2.connection := ec2.tcp 3389 |};
              {| ec2.peer := ec2.SecurityGroupPeer sg;
                 ec2.connection := ec2.allTraffic |} ].
Proof.
  split; [reflexivity|].
  apply (security_group_ingress sampleFiles "beam-workshop" sampleProps sampleStack).
  reflexivity.
Defined.

Lemma function_settings_witness :
  synth sampleFiles "beam-workshop" sampleProps = inr sampleStack
  /\ exists terminate enrich,
       lookup "TerminateAppLambda" (children sampleStack) = Some (Function_ terminate)
       /\ lookup "EnrichEventsLambda" (children sampleStack) = Some (Function_ enrich)
       /\ lambda.runtime terminate = lambda.PYTHON_3_7
       /\ lambda.memorySize terminate = Some 512%Z
       /\ lambda.handler terminate = "index.empty_bucket"
       /\ lambda.runtime enrich = lambda.NODEJS_12_X
       /\ lambda.handler enrich = "index.handler".
Proof.
  split; [reflexivity|].
  apply (function_settings sampleFiles "beam-workshop" sampleProps sampleStack).
  reflexivity.
Defined.

Lemma terminate_policy_statement_witness :
  synth sampleFiles "beam-workshop" sampleProps = inr sampleStack
  /\ exists terminate,
       lookup "TerminateAppLambda" (children sampleStack) = Some (Function_ terminate)
       /\ lambda.rolePolicy terminate =
            [ {| iam.actions := ["kinesisanalytics:StopApplication"];
                 iam.resources :=
                   [ [Text "arn:"; Tok (Aws PARTITION); Text ":kinesisanalytics:";
                      Tok (Aws REGION); Text ":"; Tok (Aws ACCOUNT_ID);
                      Text ":application/beam-workshop"] ] |} ].
Proof.
  split; [reflexivity|].
  apply (terminate_policy_statement sampleFiles "beam-workshop" sampleProps sampleStack).
  reflexivity.
Defined.

Lemma topic_single_subscriber_witness :
  synth sampleFiles "beam-workshop" sampleProps = inr sampleStack
  /\ exists topic terminate,
       lookup "TerminateAppLambda" (children sampleStack) = Some (Function_ terminate)
       /\ lookup topic (children sampleStack)
          = Some (Topic {| sns.subscriptions :=
                             [sns.LambdaSubscription "TerminateAppLambda"] |})
       /\ forall i t, In (i, Topic t) (children sampleStack) ->
            i = topic
            /\ sns.subscriptions t = [sns.LambdaSubscription "TerminateAppLambda"].
Proof.
  split; [reflexivity|].
  apply (topic_single_subscriber sampleFiles "beam-workshop" sampleProps sampleStack).
  reflexivity.
Defined.

Lemma synthesized_resource_counts_witness :
  synth sampleFiles "beam-workshop" sampleProps = inr sampleStack
  /\ (count isBucket sampleStack = 1
      /\ count isVpc sampleStack = 1
      /\ count isSecurityGroup sampleStack = 1
      /\ count isFunction sampleStack = 2
      /\ count isTopic sampleStack = 1
      /\ count isRole sampleStack = 3
      /\ map fst (stackRoles sampleStack)
         = ["EnrichEventsLambda/ServiceRole"; "TerminateAppLambda/ServiceRole";
            "KdaRole"; "EmrClusterRole"; "EmrInstanceRole"]
      /\ length (stackRoles sampleStack) = 5
      /\ count isCfnInstanceProfile sampleStack = 1
      /\ lookup "EmrInstanceProfile" (children sampleStack)
         = Some (CfnInstanceProfile
                   {| iam.roles := [iam.roleName "EmrInstanceRole"] |})
      /\ count isCfnCluster sampleStack = 1).
Proof.
  split; [reflexivity|].
  apply (synthesized_resource_counts sampleFiles "beam-workshop" sampleProps sampleStack).
  reflexivity.
Defined.

(** C4, as stated, fails: the stack synthesized from the sample
    configuration holds five IAM roles, the three declared ones and the
    service role of each function, so neither its roles nor its roles and
    instance profile together are three. *)
Lemma five_roles_not_three :
  synth sampleFiles "beam-workshop" sampleProps = inr sampleStack
  /\ map fst (stackRoles sampleStack)
     = ["EnrichEventsLambda/ServiceRole"; "TerminateAppLambda/ServiceRole";
        "KdaRole"; "EmrClusterRole"; "EmrInstanceRole"]
  /\ length (stackRoles sampleStack) = 5
  /\ length (stackRoles sampleStack) <> 3
  /\ length (stackRoles sampleStack) + count isCfnInstanceProfile sampleStack <> 3.
Proof. repeat split; discriminate. Qed.

Lemma synth_deterministic_witness :
  sampleFiles addTimestampLambdaPath = sampleFilesAndReadme addTimestampLambdaPath
  /\ sampleFiles stopApplicationLambdaPath
     = sampleFilesAndReadme stopApplicationLambdaPath
  /\ sampleFiles "README.md" <> sampleFilesAndReadme "README.md"
  /\ synth sampleFiles "beam-workshop" sampleProps
     = synth sampleFilesAndReadme "beam-workshop" sampleProps.
Proof.
  split; [reflexivity|]. split; [reflexivity|]. split; [discriminate|].
  apply (synth_deterministic sampleFiles sampleFilesAndReadme
           "beam-workshop" sampleProps); reflexivity.
Defined.

Lemma missing_source_throws_without_rollback_witness :
  (sampleFilesNoPython addTimestampLambdaPath = None
   \/ sampleFilesNoPython stopApplicationLambdaPath = None)
  /\ synth sampleFilesNoPython "beam-workshop" sampleProps
     = inl (ReadFailed stopApplicationLambdaPath)
  /\ ((forall s, synth sampleFilesNoPython "beam-workshop" sampleProps <> inr s)
      /\ forall path,
           synth sampleFilesNoPython "beam-workshop" sampleProps
           = inl (ReadFailed path) ->
           sampleFilesNoPython path = None
           /\ ((path = addTimestampLambdaPath
                /\ option_map ids (registered sampleFilesNoPython "beam-workshop" sampleProps)
                   = Some ["Bucket"; "EmptyBucket"; "S3Bucket"; "InputS3Pattern"; "Vpc";
                           "SecurityGroup"; "WindowsDevEnvironment";
                           "BeamConsumerBuildPipeline"; "BeamConsumerJarPath"])
               \/ (path = stopApplicationLambdaPath
                   /\ option_map ids (registered sampleFilesNoPython "beam-workshop" sampleProps)
                      = Some ["Bucket"; "EmptyBucket"; "S3Bucket"; "InputS3Pattern"; "Vpc";
                              "SecurityGroup"; "WindowsDevEnvironment";
                              "BeamConsumerBuildPipeline"; "BeamConsumerJarPath";
                              "EnrichEventsLambda"; "FirehoseTransformationLambda"]))).
Proof.
  split; [right; reflexivity|]. split; [reflexivity|].
  apply (missing_source_throws_without_rollback
           sampleFilesNoPython "beam-workshop" sampleProps).
  right; reflexivity.
Defined.

(** C9, as stated, fails: with the python source missing the constructor
    throws, yet the stack is there in its scope with the eleven constructs
    declared before the read, among them the bucket, the network and the
    enrichment function. *)
Lemma partial_stack_stays_registered :
  sampleFilesNoPython stopApplicationLambdaPath = None
  /\ synth sampleFilesNoPython "beam-workshop" sampleProps
     = inl (ReadFailed stopApplicationLambdaPath)
  /\ registered sampleFilesNoPython "beam-workshop" sampleProps
     = Some samplePartialStack
  /\ ids samplePartialStack
     = ["Bucket"; "EmptyBucket"; "S3Bucket"; "InputS3Pattern"; "Vpc";
        "SecurityGroup"; "WindowsDevEnvironment"; "BeamConsumerBuildPipeline";
        "BeamConsumerJarPath"; "EnrichEventsLambda"; "FirehoseTransformationLambda"]
  /\ count isBucket samplePartialStack = 1
  /\ count isFunction samplePartialStack = 1
  /\ samplePartialStack <> noStack.
Proof. repeat split; discriminate. Qed.

Lemma version_only_in_archive_url_witness :
  synth sampleFiles "beam-workshop" sampleProps = inr sampleStack
  /\ synth sampleFiles "beam-workshop"
       (withBeamApplicationVersion "release-0.3.0" sampleProps)
     = inr sampleStackBumped
  /\ (pipelineUrl sampleStackBumped =
        Some "https://github.com/aws-samples/amazon-kinesis-analytics-beam-taxi-consumer/archive/release-0.3.0.zip"
      /\ output "BeamConsumerJarPath" sampleStackBumped
         = Some (lit "target/amazon-kinesis-analytics-beam-taxi-consumer-1.0-SNAPSHOT.jar")
      /\ output "BeamConsumerJarPath" sampleStackBumped
         = output "BeamConsumerJarPath" sampleStack
      /\ ("release-0.3.0" <> beamApplicationVersion sampleProps ->
          pipelineUrl sampleStackBumped <> pipelineUrl sampleStack)).
Proof.
  split; [reflexivity|]. split; [reflexivity|].
  apply (version_only_in_archive_url sampleFiles "beam-workshop" sampleProps
           "release-0.3.0" sampleStack sampleStackBumped); reflexivity.
Defined.

(** C1, as stated, fails: the two configurations differ in the
    beamApplicationVersion only and the archive URL follows it, but the
    output BeamConsumerJarPath is the same for both and the new version does
    not occur in it. *)
Lemma beam_version_not_in_jar_path :
  samplePropsBumped = withBeamApplicationVersion "release-0.3.0" sampleProps
  /\ beamApplicationVersion sampleProps = "release-0.2.0"
  /\ synth sampleFiles "beam-workshop" sampleProps = inr sampleStack
  /\ synth sampleFiles "beam-workshop" samplePropsBumped = inr sampleStackBumped
  /\ pipelineUrl sampleStack =
       Some "https://github.com/aws-samples/amazon-kinesis-analytics-beam-taxi-consumer/archive/release-0.2.0.zip"
  /\ pipelineUrl sampleStackBumped =
       Some "https://github.com/aws-samples/amazon-kinesis-analytics-beam-taxi-consumer/archive/release-0.3.0.zip"
  /\ output "BeamConsumerJarPath" sampleStack
     = Some [Text "target/amazon-kinesis-analytics-beam-taxi-consumer-1.0-SNAPSHOT.jar"]
  /\ output "BeamConsumerJarPath" sampleStackBumped
     = output "BeamConsumerJarPath" sampleStack
  /\ contains "release-0.3.0"
       "target/amazon-kinesis-analytics-beam-taxi-consumer-1.0-SNAPSHOT.jar" = false.
Proof. repeat split. Qed.

(** * The further properties on concrete stacks *)

Lemma lambda_sources_embedded_witness :
  synth sampleFiles "beam-workshop" sampleProps = inr sampleStack
  /\ exists a b enrich terminate,
       sampleFiles addTimestampLambdaPath = Some a
       /\ sampleFiles stopApplicationLambdaPath = Some b
       /\ lookup "EnrichEventsLambda" (children sampleStack) = Some (Function_ enrich)
       /\ lookup "TerminateAppLambda" (children sampleStack) = Some (Function_ terminate)
       /\ lambda.code enrich = lambda.inline a
       /\ lambda.code terminate = lambda.inline b.
Proof.
  split; [reflexivity|].
  apply (lambda_sources_embedded sampleFiles "beam-workshop" sampleProps sampleStack).
  reflexivity.
Defined.

Lemma function_environment_and_timeouts_witness :
  synth sampleFiles "beam-workshop" sampleProps = inr sampleStack
  /\ exists terminate enrich,
       lookup "TerminateAppLambda" (children sampleStack) = Some (Function_ terminate)
       /\ lookup "EnrichEventsLambda" (children sampleStack) = Some (Function_ enrich)
       /\ lambda.environment terminate = [("application_name", "beam-workshop")]
       /\ lambda.toSeconds (lambda.timeout terminate) = 900%Z
       /\ lambda.toSeconds (lambda.timeout enrich) = 60%Z
       /\ lambda.environment enrich = []
       /\ lambda.memorySize enrich = None
       /\ lambda.rolePolicy enrich = [].
Proof.
  split; [reflexivity|].
  apply (function_environment_and_timeouts
           sampleFiles "beam-workshop" sampleProps sampleStack).
  reflexivity.
Defined.

Lemma stack_outputs_witness :
  synth sampleFiles "beam-workshop" sampleProps = inr sampleStack
  /\ (count isCfnOutput sampleStack = 5
      /\ (forall i v, In (i, CfnOutput v) (children sampleStack) ->
            In i ["S3Bucket"; "InputS3Pattern"; "BeamConsumerJarPath";
                  "FirehoseTransformationLambda"; "ApplicationTerminatedTopicName"])
      /\ (exists bucket b enrich f topic t,
            lookup bucket (children sampleStack) = Some (Bucket b)
            /\ lookup enrich (children sampleStack) = Some (Function_ f)
            /\ lambda.handler f = "index.handler"
            /\ lookup topic (children sampleStack) = Some (Topic t)
            /\ output "S3Bucket" sampleStack = Some (s3.bucketName bucket)
            /\ output "FirehoseTransformationLambda" sampleStack
               = Some (lambda.functionName enrich)
            /\ output "ApplicationTerminatedTopicName" sampleStack
               = Some (sns.topicName topic))).
Proof.
  split; [reflexivity|].
  apply (stack_outputs sampleFiles "beam-workshop" sampleProps sampleStack).
  reflexivity.
Defined.

Lemma roles_and_policies_witness :
  synth sampleFiles "beam-workshop" sampleProps = inr sampleStack
  /\ (map (fun ir => (fst ir, iam.assumedBy (snd ir), length (iam.policy (snd ir))))
          (stackRoles sampleStack)
      = [ ("EnrichEventsLambda/ServiceRole",
           iam.ServicePrincipal "lambda.amazonaws.com", 0);
          ("TerminateAppLambda/ServiceRole",
           iam.ServicePrincipal "lambda.amazonaws.com", 1);
          ("KdaRole", iam.ServicePrincipal "kinesisanalytics.amazonaws.com", 2);
          ("EmrClusterRole", iam.ServicePrincipal "elasticmapreduce.amazonaws.com", 0);
          ("EmrInstanceRole", iam.ServicePrincipal "ec2.amazonaws.com", 0) ]
      /\ (exists bucket b,
            lookup bucket (children sampleStack) = Some (Bucket b)
            /\ lookup "KdaRole" (children sampleStack)
               = Some (Role
                         {| iam.assumedBy :=
                              iam.ServicePrincipal "kinesisanalytics.amazonaws.com";
                            iam.managedPolicies := [];
                            iam.policy :=
                              [ {| iam.actions :=
                                     ["logs:Describe*"; "logs:PutLogEvents";
                                      "kinesis:List*"; "kinesis:Describe*";
                                      "kinesis:Get*"; "kinesis:SubscribeToShard"];
                                   iam.resources := [lit "*"] |};
                                {| iam.actions :=
                                     ["s3:GetObject*"; "s3:GetBucket*"; "s3:List*"];
                                   iam.resources :=
                                     [s3.bucketArn bucket;
                                      s3.bucketArn bucket ++ lit "/*"] |} ] |}))
      /\ lookup "EmrClusterRole" (children sampleStack)
         = Some (Role
                   {| iam.assumedBy :=
                        iam.ServicePrincipal "elasticmapreduce.amazonaws.com";
                      iam.managedPolicies :=
                        [iam.fromAwsManagedPolicyName
                           "service-role/AmazonElasticMapReduceRole"];
                      iam.policy := [] |})
      /\ lookup "EmrInstanceRole" (children sampleStack)
         = Some (Role
                   {| iam.assumedBy := iam.ServicePrincipal "ec2.amazonaws.com";
                      iam.managedPolicies :=
                        [iam.fromAwsManagedPolicyName
                           "service-role/AmazonElasticMapReduceforEC2Role";
                         iam.fromAwsManagedPolicyName "AmazonSSMManagedInstanceCore"];
                      iam.policy := [] |})).
Proof.
  split; [reflexivity|].
  apply (roles_and_policies sampleFiles "beam-workshop" sampleProps sampleStack).
  reflexivity.
Defined.

Lemma cluster_wiring_witness :
  synth sampleFiles "beam-workshop" sampleProps = inr sampleStack
  /\ exists c service r profile instanceRole r' sg g vpc,
       lookup "EmrCluster" (children sampleStack) = Some (CfnCluster c)
       /\ emr.serviceRole c = iam.roleName service
       /\ lookup service (children sampleStack) = Some (Role r)
       /\ iam.assumedBy r = iam.ServicePrincipal "elasticmapreduce.amazonaws.com"
       /\ emr.jobFlowRole c = tok (Ref profile)
       /\ lookup profile (children sampleStack)
          = Some (CfnInstanceProfile {| iam.roles := [iam.roleName instanceRole] |})
       /\ lookup instanceRole (children sampleStack) = Some (Role r')
       /\ iam.assumedBy r' = iam.ServicePrincipal "ec2.amazonaws.com"
       /\ emr.additionalMasterSecurityGroups (emr.instances c)
          = [ec2.securityGroupName sg]
       /\ lookup sg (children sampleStack) = Some (SecurityGroup g)
       /\ ec2.vpc g = vpc
       /\ emr.ec2SubnetId (emr.instances c) = ec2.publicSubnet0_subnetId vpc
       /\ lookup vpc (children sampleStack)
          = Some (Vpc {| ec2.subnetConfiguration :=
                           [ {| ec2.name := "public";
                                ec2.subnetType := ec2.PUBLIC |} ] |})
       /\ emr.masterInstanceGroup (emr.instances c)
          = {| emr.instanceCount := 1; emr.instanceType := "c5n.xlarge";
               emr.groupName := "Master" |}
       /\ emr.coreInstanceGroup (emr.instances c)
          = {| emr.instanceCount := 2; emr.instanceType := "r5.xlarge";
               emr.groupName := "Core" |}
       /\ emr.releaseLabel c = "emr-5.27.0"
       /\ map emr.name (emr.applications c)
          = ["Hadoop"; "Ganglia"; "Flink"; "ZooKeeper"].
Proof.
  split; [reflexivity|].
  apply (cluster_wiring sampleFiles "beam-workshop" sampleProps sampleStack).
  reflexivity.
Defined.

Lemma helper_wiring_witness :
  synth sampleFiles "beam-workshop" sampleProps = inr sampleStack
  /\ exists bucket b sg g vpc v purl,
       lookup bucket (children sampleStack) = Some (Bucket b)
       /\ lookup sg (children sampleStack) = Some (SecurityGroup g)
       /\ lookup vpc (children sampleStack) = Some (Vpc v)
       /\ ec2.vpc g = vpc
       /\ lookup "WindowsDevEnvironment" (children sampleStack)
          = Some (WindowsDevEnvironment
                    {| wde_props := sampleProps; wde_vpc := vpc; wde_sg := sg;
                       wde_bucket := bucket |})
       /\ lookup "EmptyBucket" (children sampleStack)
          = Some (EmptyBucketOnDelete {| eb_bucket := bucket |})
       /\ lookup "BeamConsumerBuildPipeline" (children sampleStack)
          = Some (GithubBuildPipeline
                    {| url := purl; gh_bucket := bucket; extract := true |}).
Proof.
  split; [reflexivity|].
  apply (helper_wiring sampleFiles "beam-workshop" sampleProps sampleStack).
  reflexivity.
Defined.
